(** * hypr-exiled: window-manager backend (package wm, X11) and application
      lifecycle (package app)

    A shallow embedding of the X11 backend ([NewX11], [FindWindow],
    [FocusWindow]) and of the application core ([NewPOEHelper],
    [checkDependencies], [Run], [Stop], [waitForShutdown],
    [handleTradeEntry]).

    The Go code talks to the outside through [exec.LookPath],
    [exec.Command], the logger, the notifier, the log watcher, the trade
    manager and the signal channel.  Every such call is an [Event] appended
    to the [trace] of the calling goroutine; what the outside answers is given
    by a [World], whose answers may depend on the whole trace so far.  Since
    every call lengthens the trace, any sequence of answers a run can observe
    is the behaviour of some [World].

    The logger, [time.Sleep], [signal.Notify] and [LogWatcher.Stop] answer
    nothing the code reads; they are recorded and taken to return.  Reading
    the signal channel is the one call that may never return. *)

From Stdlib Require Import List String Ascii ZArith Bool Lia.
Import ListNotations.
Local Open Scope string_scope.
Local Open Scope list_scope.
Local Open Scope Z_scope.

Set Implicit Arguments.

(** ** Go values *)

(** A Go [error]: [None] is [nil], [Some msg] an error whose [Error()] text
    is [msg]. *)
Definition error := option string.

Definition is_nil (e : error) : bool :=
  match e with None => true | Some _ => false end.

(** [len] of a string or byte slice. *)
Definition len (s : string) : Z := Z.of_nat (String.length s).

(** [time.Duration] counts nanoseconds. *)
Definition Duration := Z.
Definition Millisecond : Duration := 1000000.

(** ** Package strings *)

Module strings.

Definition byte_is (n : nat) (a : ascii) : bool := Nat.eqb (nat_of_ascii a) n.

Definition byte_in (lo hi : nat) (a : ascii) : bool :=
  Nat.leb lo (nat_of_ascii a) && Nat.leb (nat_of_ascii a) hi.

(** The one-byte white space of [unicode.IsSpace]:
    ['\t'], ['\n'], ['\v'], ['\f'], ['\r'] and [' ']. *)
Definition asciiSpace (a : ascii) : bool :=
  byte_in 9 13 a || byte_is 32 a.

(** The two-byte white space: U+0085 (C2 85) and U+00A0 (C2 A0). *)
Definition space2 (a b : ascii) : bool :=
  byte_is 194 a && (byte_is 133 b || byte_is 160 b).

(** The three-byte white space: U+1680 (E1 9A 80), U+2000..U+200A
    (E2 80 80 .. E2 80 8A), U+2028, U+2029, U+202F (E2 80 A8, A9, AF),
    U+205F (E2 81 9F) and U+3000 (E3 80 80). *)
Definition space3 (a b c : ascii) : bool :=
  (byte_is 225 a && byte_is 154 b && byte_is 128 c)
  || (byte_is 226 a && byte_is 128 b
      && (byte_in 128 138 c || byte_is 168 c || byte_is 169 c || byte_is 175 c))
  || (byte_is 226 a && byte_is 129 b && byte_is 159 c)
  || (byte_is 227 a && byte_is 128 b && byte_is 128 c).

(** Drops the white space a string starts with.  With [fwd = false] the
    string is read back to front, so the bytes of a rune arrive last byte
    first. *)
Fixpoint trimLeading (fwd : bool) (s : string) : string :=
  match s with
  | EmptyString => EmptyString
  | String a s1 =>
      if asciiSpace a then trimLeading fwd s1 else
      match s1 with
      | EmptyString => s
      | String b s2 =>
          if (if fwd then space2 a b else space2 b a) then trimLeading fwd s2 else
          match s2 with
          | EmptyString => s
          | String c s3 =>
              if (if fwd then space3 a b c else space3 c b a)
              then trimLeading fwd s3 else s
          end
      end
  end.

Definition reverse (s : string) : string :=
  string_of_list_ascii (rev (list_ascii_of_string s)).

(** [strings.TrimSpace]: the string without its leading and trailing white
    space, as Unicode defines it, read on the UTF-8 bytes. *)
Definition TrimSpace (s : string) : string :=
  reverse (trimLeading false (reverse (trimLeading true s))).

(** [strings.Split(s, sep)] for a one-byte separator: the pieces of [s]
    between the separators, in order. *)
Fixpoint Split (s : string) (sep : ascii) : list string :=
  match s with
  | EmptyString => [EmptyString]
  | String a r =>
      if Ascii.eqb a sep then EmptyString :: Split r sep
      else match Split r sep with
           | x :: l => String a x :: l
           | [] => [String a EmptyString]
           end
  end.

End strings.

Definition newline : ascii := ascii_of_nat 10.

(** ** Collaborators and the outside world *)

Inductive Level := LevelDebug | LevelInfo | LevelError.

(** A value logged under a key. *)
Inductive Value :=
| VString (s : string)
| VInt (n : Z)
| VError (e : error)
| VStrings (l : list string).

(** [notify.Error] and [notify.Info]. *)
Inductive NotificationType := NotifyError | NotifyInfo.

(** The signals [waitForShutdown] subscribes to; the channel delivers no
    other. *)
Inductive Signal := SIGINT | SIGTERM.

Definition Signal_String (s : Signal) : string :=
  match s with SIGINT => "interrupt" | SIGTERM => "terminated" end.

(** ** Package models *)

Module models.

(** Modelled from the spec: the states of a trade entry, whose declaration
    is missing. *)
Inductive TradeState := New | Active | Completed | Expired | Cancelled.

(** Modelled from the spec: the dedup key of a trade, made of the player
    name, the item name and the time bucket; its declaration is missing. *)
Definition DedupKey := (string * string * Z)%type.

(** Modelled from the spec: the type [models.TradeEntry], whose declaration
    is missing.  The fields are those of the data model of the spec, of which
    the code reads [PlayerName] and [ItemName]; the identifier, derived from
    the trade, is its dedup key. *)
Record TradeEntry := mkTradeEntry {
  ID : DedupKey;
  PlayerName : string;
  ItemName : string;
  RawLine : string;
  ReceivedAt : Z;
  State : TradeState
}.

End models.

(** [*poe_log.LogWatcher] and [*trade_manager.TradeManager] when not nil:
    opaque handles. *)
Inductive LogWatcher := LogWatcherAt (addr : nat).
Inductive TradeManager := TradeManagerAt (addr : nat).

(** The fields of the configuration the code reads. *)
Record Config := mkConfig {
  PoeLogPath : string;
  NotifyCommand : string;
  CompiledTriggers : list string
}.

Inductive Event :=
| EvLookPath (file : string)
| EvOutput (name : string) (args : list string)
| EvRun (name : string) (args : list string)
| EvSleep (d : Duration)
| EvLog (lvl : Level) (msg : string) (err : error) (fields : list (string * Value))
| EvShow (msg : string) (kind : NotificationType)
| EvNewTradeManager
| EvNewLogWatcher (callback : option TradeManager)
| EvGoWatch (lw : option LogWatcher)
| EvWatch (lw : option LogWatcher)
| EvWatcherStop (lw : LogWatcher)
| EvSignalNotify (sigs : list Signal)
| EvSignal (sig : Signal)
| EvAddTrade (tm : option TradeManager) (entry : models.TradeEntry).

(** The events of one goroutine, oldest first. *)
Definition trace := list Event.

(** What the outside answers to a call made after the events of a trace. *)
Record World := mkWorld {
  (* exec.LookPath(file) *)
  look_path : trace -> string -> string * error;
  (* exec.Command(name, args...).Output() *)
  cmd_output : trace -> string -> list string -> string * error;
  (* exec.Command(name, args...).Run() *)
  cmd_run : trace -> string -> list string -> error;
  (* global.GetNotifier().Show(msg, kind) *)
  notifier_show : trace -> string -> NotificationType -> error;
  (* trade_manager.NewTradeManager() *)
  new_trade_manager : trace -> option TradeManager;
  (* poe_log.NewLogWatcher(callback) *)
  new_log_watcher : trace -> option LogWatcher * error;
  (* LogWatcher.Watch(); [None] when it never returns *)
  watcher_watch : trace -> option LogWatcher -> option error;
  (* TradeManager.AddTrade(entry) *)
  add_trade : trace -> option TradeManager -> models.TradeEntry -> error;
  (* the signal read from the channel; [None] when none ever arrives *)
  signal_recv : trace -> option Signal;
  (* global.GetConfig() *)
  config : Config
}.

(** ** Computations of one goroutine *)

Inductive result (A : Type) :=
| Done (a : A)
| Blocked.
Arguments Blocked {A}.

Definition M (A : Type) : Type := trace -> result A * trace.

Definition ret {A} (a : A) : M A := fun t => (Done a, t).

Definition bind {A B} (m : M A) (k : A -> M B) : M B :=
  fun t =>
    match m t with
    | (Done a, t') => k a t'
    | (Blocked, t') => (Blocked, t')
    end.

Declare Scope go_scope.
Delimit Scope go_scope with go.
Notation "x <- m ;; k" := (bind m (fun x => k))
  (at level 61, m at next level, right associativity) : go_scope.
Notation "' pat <- m ;; k" := (bind m (fun x => match x with pat => k end))
  (at level 61, pat pattern, m at next level, right associativity) : go_scope.
Notation "m ;; k" := (bind m (fun _ => k))
  (at level 61, right associativity) : go_scope.
Local Open Scope go_scope.

(** A call that returns: the answer is the one the world gives after the
    trace so far, and the call is recorded. *)
Definition call {A} (e : Event) (answer : trace -> A) : M A :=
  fun t => (Done (answer t), t ++ [e]).

Definition emit (e : Event) : M unit := call e (fun _ => tt).

(** [fmt.Errorf(prefix + "%w", err)] *)
Definition Errorf_w (prefix msg : string) : error := Some (prefix ++ msg)%string.

Section Calls.
Context (w : World).

Definition LookPath (file : string) : M (string * error) :=
  call (EvLookPath file) (fun t => look_path w t file).

Definition Output (name : string) (args : list string) : M (string * error) :=
  call (EvOutput name args) (fun t => cmd_output w t name args).

Definition CmdRun (name : string) (args : list string) : M error :=
  call (EvRun name args) (fun t => cmd_run w t name args).

Definition Sleep (d : Duration) : M unit := emit (EvSleep d).

Definition LogDebug (msg : string) (fields : list (string * Value)) : M unit :=
  emit (EvLog LevelDebug msg None fields).

Definition LogInfo (msg : string) (fields : list (string * Value)) : M unit :=
  emit (EvLog LevelInfo msg None fields).

Definition LogError (msg : string) (err : error)
    (fields : list (string * Value)) : M unit :=
  emit (EvLog LevelError msg err fields).

Definition Show (msg : string) (kind : NotificationType) : M error :=
  call (EvShow msg kind) (fun t => notifier_show w t msg kind).

(** [<-sigChan]: blocks until a signal arrives. *)
Definition Receive : M Signal :=
  fun t =>
    match signal_recv w t with
    | Some sig => (Done sig, t ++ [EvSignal sig])
    | None => (Blocked, t)
    end.
End Calls.

(** ** Package wm: the X11 backend *)

Module wm.

Record Window := mkWindow {
  ID : string;
  Class_ : string
}.

(** [Window{}] *)
Definition zeroWindow : Window := mkWindow "" "".

Inductive X11 := mkX11.

Section X11.
Context (w : World).

Definition NewX11 : M (option X11 * error) :=
  '(_, err) <- LookPath w "xdotool" ;;
  match err with
  | Some e =>
      ret (None,
           Errorf_w "xdotool is required for X11 support but was not found: " e)
  | None => ret (Some mkX11, None)
  end.

Definition Name (x : X11) : string := "X11".

Fixpoint FindWindow (x : X11) (classNames : list string) : M (Window * error) :=
  match classNames with
  | [] => ret (zeroWindow, None)
  | class :: rest =>
      '(out, err) <- Output w "xdotool" ["search"; "--class"; class] ;;
      if is_nil err && (0 <? len out) then
        let windowID :=
          nth 0 (strings.Split (strings.TrimSpace out) newline) "" in
        '(_, err') <- Output w "xdotool" ["getwindowname"; windowID] ;;
        if is_nil err' then ret (mkWindow windowID class, None)
        else FindWindow x rest
      else FindWindow x rest
  end.

Definition FocusWindow (x : X11) (win : Window) : M error :=
  if String.eqb (ID win) "" then
    ret (Some "cannot focus window: no window ID provided")
  else
    err <- CmdRun w "xdotool" ["windowactivate"; ID win] ;;
    match err with
    | Some e => ret (Errorf_w "failed to focus window: " e)
    | None =>
        Sleep (100 * Millisecond) ;;
        ret None
    end.
End X11.

(** The interface [WindowManager] the backends implement. *)
Class WindowManager (B : Type) := {
  wm_Name : B -> string;
  wm_FindWindow : World -> B -> list string -> M (Window * error);
  wm_FocusWindow : World -> B -> Window -> M error
}.

#[export] Instance X11_WindowManager : WindowManager X11 := {
  wm_Name := Name;
  wm_FindWindow := FindWindow;
  wm_FocusWindow := FocusWindow
}.

End wm.

(** ** Package app: the application core *)

Module app.

Record POEHelper := mkPOEHelper {
  entries : list models.TradeEntry;
  poeLogWatcher : option LogWatcher;
  tradeManager : option TradeManager
}.

Section App.
Context (w : World).

(** The loop of [checkDependencies] over the dependencies left to check:
    the error of the first one that is not found, [nil] when all are. *)
Fixpoint checkDependencies_loop (deps : list string) : M error :=
  match deps with
  | [] => ret None
  | dep :: rest =>
      '(_, err) <- LookPath w dep ;;
      match err with
      | Some _ =>
          LogInfo "Dependency check failed"
            [("missing_dependency", VString dep); ("error", VError err)] ;;
          ret (Some (dep ++
            " is not installed. Please install it using your package manager")%string)
      | None => checkDependencies_loop rest
      end
  end.

Definition checkDependencies : M error :=
  LogInfo "Checking system dependencies" [] ;;
  let deps := ["rofi"] in
  err <- checkDependencies_loop deps ;;
  match err with
  | Some _ => ret err
  | None =>
      LogInfo "All dependencies satisfied" [] ;;
      ret None
  end.

Definition NewTradeManager : M (option TradeManager) :=
  call EvNewTradeManager (fun t => new_trade_manager w t).

(** [poe_log.NewLogWatcher(helper.handleTradeEntry)]: the callback is the
    method value of the helper, which hands entries to its trade manager. *)
Definition NewLogWatcher (callback : option TradeManager)
    : M (option LogWatcher * error) :=
  call (EvNewLogWatcher callback) (fun t => new_log_watcher w t).

Definition NewPOEHelper : M (option POEHelper * error) :=
  let config := config w in
  LogInfo "Creating new POE Helper instance" [] ;;
  LogDebug "Initializing POEHelper"
    [("log_path", VString (PoeLogPath config));
     ("notify_command", VString (NotifyCommand config));
     ("trigger_count", VInt (Z.of_nat (List.length (CompiledTriggers config))))] ;;
  err <- checkDependencies ;;
  match err with
  | Some e =>
      LogError "Dependency check failed" err
        [("details", VString "Required dependencies not found")] ;;
      _ <- Show w e NotifyError ;;
      ret (None, err)
  | None =>
      tradeManager <- NewTradeManager ;;
      let helper := mkPOEHelper [] None tradeManager in
      LogDebug "Creating log watcher instance" [] ;;
      '(logWatcher, err) <- NewLogWatcher (app.tradeManager helper) ;;
      match err with
      | Some e =>
          LogError "Log watcher initialization failed" err
            [("details", VString "Failed to create log watcher instance")] ;;
          ret (None, Errorf_w "failed to initialize log watcher: " e)
      | None =>
          ret (Some (mkPOEHelper (entries helper) logWatcher
                       (app.tradeManager helper)), None)
      end
  end.

Definition Stop (p : POEHelper) : M error :=
  LogInfo "Initiating POE Helper shutdown" [] ;;
  match poeLogWatcher p with
  | Some lw =>
      LogDebug "Stopping log watcher" [] ;;
      emit (EvWatcherStop lw)
  | None => ret tt
  end ;;
  LogInfo "POE Helper shutdown complete"
    [("status", VString "stopped");
     ("processed_entries", VInt (Z.of_nat (List.length (entries p))))] ;;
  ret None.

Definition waitForShutdown : M unit :=
  LogDebug "Setting up shutdown signal handler"
    [("signals", VStrings ["SIGINT"; "SIGTERM"])] ;;
  emit (EvSignalNotify [SIGINT; SIGTERM]) ;;
  sig <- Receive w ;;
  LogInfo "Shutdown signal received" [("signal", VString (Signal_String sig))].

(** The body of the goroutine [Run] starts; its events are those of that
    goroutine, not of the caller of [Run]. *)
Definition watchRoutine (p : POEHelper) : M unit :=
  fun t =>
    match watcher_watch w t (poeLogWatcher p) with
    | None => (Blocked, t ++ [EvWatch (poeLogWatcher p)])
    | Some err =>
        (match err with
         | Some e =>
             LogError "Log watcher routine failed" err
               [("component", VString "log_watcher")] ;;
             _ <- Show w ("Log watcher error: " ++ e)%string NotifyError ;;
             ret tt
         | None => ret tt
         end) (t ++ [EvWatch (poeLogWatcher p)])
    end.

Definition Run (p : POEHelper) : M error :=
  LogInfo "Starting POE Helper service" [] ;;
  LogDebug "Initializing service components" [] ;;
  err <- Show w "POE Helper started" NotifyInfo ;;
  match err with
  | Some _ =>
      LogError "Startup notification failed" err
        [("notification_type", VString "startup")]
  | None => ret tt
  end ;;
  emit (EvGoWatch (poeLogWatcher p)) ;;
  LogInfo "Service started successfully"
    [("status", VString "running"); ("waiting_for", VString "shutdown_signal")] ;;
  waitForShutdown ;;
  Stop p.

Definition AddTrade (tm : option TradeManager) (entry : models.TradeEntry) : M error :=
  call (EvAddTrade tm entry) (fun t => add_trade w t tm entry).

Definition handleTradeEntry (p : POEHelper) (entry : models.TradeEntry) : M unit :=
  err <- AddTrade (tradeManager p) entry ;;
  match err with
  | Some _ =>
      LogError "Failed to process trade in manager" err
        [("player", VString (models.PlayerName entry));
         ("item", VString (models.ItemName entry))]
  | None => ret tt
  end.
End App.

End app.

(** ** Package trade_manager: the trade registry *)

Module trade_manager.

(** Modelled from the spec: the data of a parsed log line, which [AddTrade]
    takes; the source of the trade manager is missing. *)
Record ParsedLine := mkParsedLine {
  Line_PlayerName : string;
  Line_ItemName : string;
  Line_RawLine : string;
  Line_ReceivedAt : Z
}.

(** Modelled from the spec: the registry of the trade manager, its entries
    in the order they were added, with the width of the coarse time bucket,
    which the spec leaves to the implementer. *)
Record Registry := mkRegistry {
  bucket_width : Z;
  trades : list models.TradeEntry
}.

Inductive AddResult := Success | DuplicateIgnored.

(** Modelled from the spec: [Completed], [Expired] and [Cancelled] are the
    terminal states of an entry. *)
Definition terminal (s : models.TradeState) : bool :=
  match s with
  | models.New | models.Active => false
  | models.Completed | models.Expired | models.Cancelled => true
  end.

Definition key_eqb (k1 k2 : models.DedupKey) : bool :=
  let '(p1, i1, b1) := k1 in
  let '(p2, i2, b2) := k2 in
  String.eqb p1 p2 && String.eqb i1 i2 && Z.eqb b1 b2.

(** Modelled from the spec: the dedup key is made of the player name, the
    item name and a coarse time bucket. *)
Definition dedupKey (width : Z) (player item : string) (at_ : Z) : models.DedupKey :=
  (player, item, at_ / width).

Definition lineKey (width : Z) (d : ParsedLine) : models.DedupKey :=
  dedupKey width (Line_PlayerName d) (Line_ItemName d) (Line_ReceivedAt d).

Definition entryKey (width : Z) (e : models.TradeEntry) : models.DedupKey :=
  dedupKey width (models.PlayerName e) (models.ItemName e) (models.ReceivedAt e).

(** An entry that is not terminal and has the key [k]. *)
Definition live_with_key (width : Z) (k : models.DedupKey)
    (e : models.TradeEntry) : bool :=
  key_eqb (entryKey width e) k && negb (terminal (models.State e)).

(** Modelled from the spec: [AddTrade] of the trade manager.  It computes
    the dedup key of the line; when an entry with that key is in the registry
    in a state that is not terminal the call changes nothing and answers
    duplicate-ignored, otherwise the line becomes an entry in state [models.New]. *)
Definition AddTrade (d : ParsedLine) (r : Registry) : AddResult * Registry :=
  let k := lineKey (bucket_width r) d in
  if existsb (live_with_key (bucket_width r) k) (trades r) then
    (DuplicateIgnored, r)
  else
    (Success,
     mkRegistry (bucket_width r)
       (trades r ++
        [models.mkTradeEntry k (Line_PlayerName d) (Line_ItemName d) (Line_RawLine d)
           (Line_ReceivedAt d) models.New])).

End trade_manager.

(** ** Vocabulary of the properties *)

(** A binary is absent when looking it up fails, whenever it is tried. *)
Definition absent (w : World) (file : string) : Prop :=
  forall t, snd (look_path w t file) <> None.

(** The events by which the log watcher is created, started or stopped and
    the trade manager created: the background work of the application. *)
Definition background_work (e : Event) : bool :=
  match e with
  | EvNewTradeManager | EvNewLogWatcher _ | EvGoWatch _ | EvWatch _
  | EvWatcherStop _ => true
  | _ => false
  end.

Definition is_watcher_stop (e : Event) : bool :=
  match e with EvWatcherStop _ => true | _ => false end.

Section Probe.
Context (w : World).

Definition searchEvent (class : string) : Event :=
  EvOutput "xdotool" ["search"; "--class"; class].

Definition nameEvent (id : string) : Event :=
  EvOutput "xdotool" ["getwindowname"; id].

(** What [xdotool search --class class] answers after [t]. *)
Definition search (t : trace) (class : string) : string * error :=
  cmd_output w t "xdotool" ["search"; "--class"; class].

(** The search finds a window of the class: it succeeds and prints
    something. *)
Definition window_exists (t : trace) (class : string) : bool :=
  is_nil (snd (search t class)) && (0 <? len (fst (search t class))).

(** The first window the search lists. *)
Definition firstID (t : trace) (class : string) : string :=
  nth 0 (strings.Split (strings.TrimSpace (fst (search t class))) newline) "".

(** What [xdotool getwindowname] answers for that window, asked right
    after the search. *)
Definition title (t : trace) (class : string) : string * error :=
  cmd_output w (t ++ [searchEvent class]) "xdotool"
    ["getwindowname"; firstID t class].

(** The search finds a window and the title of the first one listed can
    be read. *)
Definition usable (t : trace) (class : string) : bool :=
  window_exists t class && is_nil (snd (title t class)).

(** The calls one round of the loop of [FindWindow] makes. *)
Definition probe_events (t : trace) (class : string) : list Event :=
  if window_exists t class
  then [searchEvent class; nameEvent (firstID t class)]
  else [searchEvent class].
End Probe.

(** The error of [checkDependencies] when rofi is not found. *)
Definition rofi_missing : string :=
  "rofi is not installed. Please install it using your package manager".

(** The events of [Run] up to the point where it waits for the signal. *)
Definition Run_startup (w : World) (p : app.POEHelper) (t : trace) : list Event :=
  [EvLog LevelInfo "Starting POE Helper service" None [];
   EvLog LevelDebug "Initializing service components" None [];
   EvShow "POE Helper started" NotifyInfo]
  ++ match notifier_show w
             (t ++ [EvLog LevelInfo "Starting POE Helper service" None [];
                    EvLog LevelDebug "Initializing service components" None []])
             "POE Helper started" NotifyInfo with
     | Some e =>
         [EvLog LevelError "Startup notification failed" (Some e)
            [("notification_type", VString "startup")]]
     | None => []
     end
  ++ [EvGoWatch (app.poeLogWatcher p);
      EvLog LevelInfo "Service started successfully" None
        [("status", VString "running");
         ("waiting_for", VString "shutdown_signal")];
      EvLog LevelDebug "Setting up shutdown signal handler" None
        [("signals", VStrings ["SIGINT"; "SIGTERM"])];
      EvSignalNotify [SIGINT; SIGTERM]].

(** The claim that [FindWindow] answers the first class of the list of which
    a window exists, whatever becomes of reading its title. *)
Definition returns_first_existing (w : World) (classNames : list string) : Prop :=
  forall pre class post,
    classNames = pre ++ class :: post ->
    (forall c t, In c pre -> window_exists w t c = false) ->
    (forall t, window_exists w t class = true) ->
    exists id t',
      wm.FindWindow w wm.mkX11 classNames [] =
        (Done (wm.mkWindow id class, None), t').

(** ** Worlds to run the code in *)

Definition line (s : string) : string := (s ++ String newline "")%string.

(** A desktop with a table of what [xdotool] prints and whether it fails,
    the binaries installed, and collaborators that never fail. *)
Definition desktop (installed : list string)
    (xdotool : list string -> string * error) : World :=
  mkWorld
    (fun _ file =>
       if existsb (String.eqb file) installed
       then (("/usr/bin/" ++ file)%string, None)
       else ("", Some "executable file not found in $PATH"))
    (fun _ _ args => xdotool args)
    (fun _ _ args => snd (xdotool args))
    (fun _ _ _ => None)
    (fun _ => Some (TradeManagerAt 1))
    (fun _ => (Some (LogWatcherAt 2), None))
    (fun _ _ => None)
    (fun _ _ _ => None)
    (fun _ => Some SIGTERM)
    (mkConfig "/tmp/Client.txt" "notify-send" []).

(** Two windows of class GameWindowV2, the first of which has no title to
    read, and one window of class GameWindow. *)
Definition xdotool_untitled (args : list string) : string * error :=
  match args with
  | ["search"; "--class"; "GameWindowV2"] => ((line "111" ++ line "112")%string, None)
  | ["search"; "--class"; "GameWindow"] => (line "222", None)
  | ["getwindowname"; "111"] => ("", Some "exit status 1")
  | ["getwindowname"; "112"] => (line "Path of Exile 2", None)
  | ["getwindowname"; "222"] => (line "Path of Exile", None)
  | ["windowactivate"; "222"] => ("", None)
  | _ => ("", Some "exit status 1")
  end.

(** Only a window of class GameWindow exists. *)
Definition xdotool_fallback (args : list string) : string * error :=
  match args with
  | ["search"; "--class"; "GameWindow"] => (line "222", None)
  | ["getwindowname"; "222"] => (line "Path of Exile", None)
  | ["windowactivate"; "222"] => ("", None)
  | _ => ("", Some "exit status 1")
  end.

(** No window at all: every search prints nothing and fails. *)
Definition xdotool_empty (args : list string) : string * error :=
  ("", Some "exit status 1").

Definition world_untitled : World := desktop ["xdotool"; "rofi"] xdotool_untitled.
Definition world_fallback : World := desktop ["xdotool"; "rofi"] xdotool_fallback.
Definition world_empty : World := desktop ["xdotool"; "rofi"] xdotool_empty.
Definition world_bare : World := desktop [] xdotool_empty.

(** A trade entry and a registry that holds it, with buckets of a minute. *)
Definition mirror_trade : models.TradeEntry :=
  models.mkTradeEntry ("Exile", "Mirror", 28) "Exile" "Mirror" "first" 1700
    models.New.

Definition mirror_registry : trade_manager.Registry :=
  trade_manager.mkRegistry 60 [mirror_trade].

(** A world like [w] in which the signal never arrives. *)
Definition without_signal (w : World) : World :=
  mkWorld (look_path w) (cmd_output w) (cmd_run w) (notifier_show w)
    (new_trade_manager w) (new_log_watcher w) (watcher_watch w) (add_trade w)
    (fun _ => None) (config w).

(** A world like [w] in which the trade manager refuses every trade. *)
Definition refusing_trades (w : World) : World :=
  mkWorld (look_path w) (cmd_output w) (cmd_run w) (notifier_show w)
    (new_trade_manager w) (new_log_watcher w) (watcher_watch w)
    (fun _ _ _ => Some "storage unavailable")
    (signal_recv w) (config w).

(** ** Vocabulary of the further properties *)

Definition is_sleep (e : Event) : bool :=
  match e with EvSleep _ => true | _ => false end.

Definition is_show (e : Event) : bool :=
  match e with EvShow _ _ => true | _ => false end.

Definition is_go_watch (e : Event) : bool :=
  match e with EvGoWatch _ => true | _ => false end.

Definition is_signal (e : Event) : bool :=
  match e with EvSignal _ => true | _ => false end.

Definition is_subscription (e : Event) : bool :=
  match e with EvSignalNotify _ => true | _ => false end.

(** The two questions [FindWindow] asks xdotool. *)
Definition is_query (e : Event) : bool :=
  match e with
  | EvOutput "xdotool" ["search"; "--class"; _] => true
  | EvOutput "xdotool" ["getwindowname"; _] => true
  | _ => false
  end.

(** The class a search asks for. *)
Definition searched_class (e : Event) : list string :=
  match e with
  | EvOutput "xdotool" ["search"; "--class"; class] => [class]
  | _ => []
  end.

(** The classes searched for in the course of some events, in order. *)
Definition classes_searched (evs : list Event) : list string :=
  flat_map searched_class evs.

(** The binaries looked up in the course of some events, in order. *)
Definition looked_up (evs : list Event) : list string :=
  flat_map (fun e => match e with EvLookPath file => [file] | _ => [] end) evs.

(** The entries handed to the trade manager in the course of some events,
    in order. *)
Definition trades_added (evs : list Event) : list models.TradeEntry :=
  flat_map (fun e => match e with EvAddTrade _ entry => [entry] | _ => [] end)
    evs.

(** The calls [FindWindow] makes for classes none of which it accepts. *)
Fixpoint probes (w : World) (t : trace) (classNames : list string) : list Event :=
  match classNames with
  | [] => []
  | class :: rest =>
      probe_events w t class ++ probes w (t ++ probe_events w t class) rest
  end.

(** The byte [b] occurs in the string [s]. *)
Definition has_byte (b : ascii) (s : string) : bool :=
  existsb (Ascii.eqb b) (list_ascii_of_string s).

(** [FindWindow] followed by [FocusWindow] on the window it answers. *)
Definition find_then_focus (w : World) (x : wm.X11) (classNames : list string)
    : M error :=
  bind (wm.FindWindow w x classNames) (fun found => wm.FocusWindow w x (fst found)).


(** The callback of the log watcher called on one entry after the other. *)
Fixpoint handle_each (w : World) (p : app.POEHelper)
    (entries : list models.TradeEntry) : M unit :=
  match entries with
  | [] => ret tt
  | entry :: rest =>
      bind (app.handleTradeEntry w p entry) (fun _ => handle_each w p rest)
  end.

(** [NewPOEHelper] followed, when it answers a helper, by [Run] on it. *)
Definition new_then_run (w : World) : M error :=
  bind (app.NewPOEHelper w)
    (fun made =>
       match fst made with
       | Some p => app.Run w p
       | None => ret (snd made)
       end).

(** The events of [NewPOEHelper] up to the lookup of rofi. *)
Definition NewPOEHelper_prelude (w : World) : list Event :=
  [EvLog LevelInfo "Creating new POE Helper instance" None [];
   EvLog LevelDebug "Initializing POEHelper" None
     [("log_path", VString (PoeLogPath (config w)));
      ("notify_command", VString (NotifyCommand (config w)));
      ("trigger_count",
       VInt (Z.of_nat (List.length (CompiledTriggers (config w)))))];
   EvLog LevelInfo "Checking system dependencies" None []].

(** The events of [NewPOEHelper] from the lookup of rofi, when it is found,
    to the creation of the log watcher. *)
Definition NewPOEHelper_setup : list Event :=
  [EvLookPath "rofi";
   EvLog LevelInfo "All dependencies satisfied" None [];
   EvNewTradeManager;
   EvLog LevelDebug "Creating log watcher instance" None []].

(** A world like [w] in which no log watcher can be created. *)
Definition without_log_file (w : World) : World :=
  mkWorld (look_path w) (cmd_output w) (cmd_run w) (notifier_show w)
    (new_trade_manager w) (fun _ => (None, Some "no such file or directory"))
    (watcher_watch w) (add_trade w) (signal_recv w) (config w).

(** The events of [Run] between the start of the goroutine and the wait
    for the signal. *)
Definition Run_waiting : list Event :=
  [EvLog LevelInfo "Service started successfully" None
     [("status", VString "running");
      ("waiting_for", VString "shutdown_signal")];
   EvLog LevelDebug "Setting up shutdown signal handler" None
     [("signals", VStrings ["SIGINT"; "SIGTERM"])];
   EvSignalNotify [SIGINT; SIGTERM]].

(** The events of [Run] between the receipt of the signal and the stop of
    the log watcher. *)
Definition Run_stopping (sig : Signal) : list Event :=
  [EvLog LevelInfo "Shutdown signal received" None
     [("signal", VString (Signal_String sig))];
   EvLog LevelInfo "Initiating POE Helper shutdown" None [];
   EvLog LevelDebug "Stopping log watcher" None []].

(** * Properties *)

Unset Implicit Arguments.

(** Runs the calls a computation starts with, as far as their answers are
    known. *)
Ltac run_go :=
  repeat (progress (unfold bind, call, emit, ret, Sleep, CmdRun, Output,
                      LookPath, LogInfo, LogDebug, LogError, Show;
                    cbv beta iota)).

(** ** Package strings *)

(** [strings.Split] never answers the empty slice, so indexing its result
    at 0 is in range. *)
Lemma Split_nonempty (s : string) (sep : ascii) : strings.Split s sep <> [].
Proof.
  induction s as [|a r IH]; simpl.
  - discriminate.
  - destruct (Ascii.eqb a sep); [discriminate|].
    destruct (strings.Split r sep); discriminate.
Qed.

(** What [FindWindow] makes of the output of a search that lists two
    windows: the identifier of the first. *)
Example firstID_of_two_windows :
  nth 0 (strings.Split (strings.TrimSpace (line "111" ++ line "112")) newline) ""
  = "111".
Proof. reflexivity. Qed.

(** ** The X11 backend *)

(** One round of the loop of [FindWindow]. *)
Lemma FindWindow_cons (w : World) (x : wm.X11) (class : string)
    (rest : list string) (t : trace) :
  wm.FindWindow w x (class :: rest) t =
    if usable w t class
    then (Done (wm.mkWindow (firstID w t class) class, None),
          t ++ probe_events w t class)
    else wm.FindWindow w x rest (t ++ probe_events w t class).
Proof.
  unfold usable, probe_events, title, window_exists, firstID, search.
  simpl. unfold bind at 1. unfold Output at 1, call at 1.
  destruct (cmd_output w t "xdotool" ["search"; "--class"; class]) as [out err].
  simpl. destruct (is_nil err && (0 <? len out)); simpl; [|reflexivity].
  unfold bind at 1. unfold Output at 1, call at 1. unfold searchEvent, nameEvent.
  destruct (cmd_output w (t ++ [EvOutput "xdotool" ["search"; "--class"; class]])
              "xdotool" _) as [ttl err'].
  simpl. rewrite <- app_assoc. simpl.
  destruct (is_nil err'); reflexivity.
Qed.

(** When no class of the list is usable the answer is [Window{}], [nil]. *)
Lemma FindWindow_none_usable (w : World) (x : wm.X11) (classNames : list string) :
  forall t,
    (forall c t', In c classNames -> usable w t' c = false) ->
    exists t', wm.FindWindow w x classNames t = (Done (wm.zeroWindow, None), t').
Proof.
  induction classNames as [|c rest IH]; intros t Hnone.
  - exists t. reflexivity.
  - rewrite FindWindow_cons, (Hnone c t (or_introl eq_refl)).
    apply IH. intros c' t' Hin. apply Hnone. right. exact Hin.
Qed.

(** The classes that are not usable are passed over. *)
Lemma FindWindow_skip (w : World) (x : wm.X11) (pre rest : list string) :
  forall t,
    (forall c t', In c pre -> usable w t' c = false) ->
    exists evs, wm.FindWindow w x (pre ++ rest) t = wm.FindWindow w x rest (t ++ evs).
Proof.
  induction pre as [|c pre IH]; intros t Hpre.
  - exists []. rewrite app_nil_r. reflexivity.
  - rewrite <- app_comm_cons, FindWindow_cons, (Hpre c t (or_introl eq_refl)).
    destruct (IH (t ++ probe_events w t c)) as [evs Hevs].
    + intros c' t' Hin. apply Hpre. right. exact Hin.
    + exists (probe_events w t c ++ evs). rewrite Hevs, app_assoc. reflexivity.
Qed.

(** [FindWindow] always returns, and its error is [nil]. *)
Lemma FindWindow_total (w : World) (x : wm.X11) (classNames : list string) :
  forall t, exists win t', wm.FindWindow w x classNames t = (Done (win, None), t').
Proof.
  induction classNames as [|c rest IH]; intros t.
  - exists wm.zeroWindow, t. reflexivity.
  - rewrite FindWindow_cons. destruct (usable w t c).
    + eexists. eexists. reflexivity.
    + apply IH.
Qed.

(** C1, as the code has it: [FindWindow] answers the first class of the list
    that is usable, that is, for which the search succeeds and prints
    something and the title of the first window listed can be read.  The
    window answered has that class and the identifier of that first window,
    and the error is [nil].  When no class of the list is usable the answer
    is [Window{}] with a [nil] error. *)
Theorem FindWindow_first_usable (w : World) (x : wm.X11)
    (classNames : list string) (t : trace) :
  (forall pre class post,
     classNames = pre ++ class :: post ->
     (forall c t', In c pre -> usable w t' c = false) ->
     (forall t', usable w t' class = true) ->
     exists evs,
       wm.FindWindow w x classNames t =
         (Done (wm.mkWindow (firstID w (t ++ evs) class) class, None),
          t ++ evs ++ probe_events w (t ++ evs) class))
  /\ ((forall c t', In c classNames -> usable w t' c = false) ->
      exists t', wm.FindWindow w x classNames t = (Done (wm.zeroWindow, None), t')).
Proof.
  split.
  - intros pre class post -> Hpre Hclass.
    destruct (FindWindow_skip w x pre (class :: post) t Hpre) as [evs Hevs].
    exists evs. rewrite Hevs, FindWindow_cons, Hclass, app_assoc. reflexivity.
  - apply FindWindow_none_usable.
Qed.

(** C1 in a world where only a window of class GameWindow exists and in a
    world without windows. *)
Lemma FindWindow_first_usable_witness :
  (exists evs,
     wm.FindWindow world_fallback wm.mkX11 ["GameWindowV2"; "GameWindow"] [] =
       (Done (wm.mkWindow "222" "GameWindow", None),
        evs ++ [searchEvent "GameWindow"; nameEvent "222"]))
  /\ (exists t',
        wm.FindWindow world_empty wm.mkX11 ["GameWindowV2"; "GameWindow"] [] =
          (Done (wm.zeroWindow, None), t')).
Proof.
  split.
  - destruct (proj1 (FindWindow_first_usable world_fallback wm.mkX11
                       ["GameWindowV2"; "GameWindow"] [])
                ["GameWindowV2"] "GameWindow" [] eq_refl) as [evs Hevs].
    + intros c t' [<-|[]]. reflexivity.
    + intros t'. reflexivity.
    + exists evs. exact Hevs.
  - apply (proj2 (FindWindow_first_usable world_empty wm.mkX11
                    ["GameWindowV2"; "GameWindow"] [])).
    intros c t' _. reflexivity.
Defined.

(** C1, as the spec words it, fails: in [world_untitled] windows of class
    GameWindowV2 exist, the first class of the list, and [FindWindow] answers
    the window of class GameWindow, because the title of the first window
    listed for GameWindowV2 cannot be read. *)
Lemma FindWindow_first_existing_counterexample :
  ~ returns_first_existing world_untitled ["GameWindowV2"; "GameWindow"].
Proof.
  intros Hclaim.
  destruct (Hclaim [] "GameWindowV2" ["GameWindow"] eq_refl) as (id & t' & Hrun).
  - intros c t [].
  - intros t. reflexivity.
  - vm_compute in Hrun. discriminate Hrun.
Qed.

(** C8: for every list of class names [FindWindow] returns with a [nil]
    error.  A class whose search fails, whose search prints nothing, or the
    title of whose first window cannot be read, is passed over; when that
    happens to every class of the list the answer is the [Window{}] of an
    absent window, with an empty identifier and a [nil] error. *)
Theorem FindWindow_never_errors (w : World) (x : wm.X11)
    (classNames : list string) (t : trace) :
  (exists win t', wm.FindWindow w x classNames t = (Done (win, None), t'))
  /\ (forall class rest t0,
        snd (search w t0 class) <> None
        \/ len (fst (search w t0 class)) = 0
        \/ snd (title w t0 class) <> None ->
        wm.FindWindow w x (class :: rest) t0 =
          wm.FindWindow w x rest (t0 ++ probe_events w t0 class))
  /\ ((forall class t0,
         In class classNames ->
         snd (search w t0 class) <> None
         \/ len (fst (search w t0 class)) = 0
         \/ snd (title w t0 class) <> None) ->
      exists t',
        wm.FindWindow w x classNames t = (Done (wm.mkWindow "" "", None), t')).
Proof.
  assert (Hfail : forall class t0,
             snd (search w t0 class) <> None
             \/ len (fst (search w t0 class)) = 0
             \/ snd (title w t0 class) <> None ->
             usable w t0 class = false).
  { intros class t0 H. unfold usable, window_exists.
    destruct H as [H|[H|H]].
    - destruct (snd (search w t0 class)); [reflexivity|congruence].
    - rewrite H, andb_false_r. reflexivity.
    - destruct (snd (title w t0 class)); [|congruence].
      apply andb_false_r. }
  split; [apply FindWindow_total|]. split.
  - intros class rest t0 H. rewrite FindWindow_cons, (Hfail _ _ H). reflexivity.
  - intros Hall. apply FindWindow_none_usable.
    intros c t' Hin. apply Hfail, Hall, Hin.
Qed.

(** C8 in a world where every search fails and in a world where the title
    of the first window of the first class cannot be read. *)
Lemma FindWindow_never_errors_witness :
  (exists t',
     wm.FindWindow world_empty wm.mkX11 ["GameWindowV2"; "GameWindow"] [] =
       (Done (wm.mkWindow "" "", None), t'))
  /\ wm.FindWindow world_untitled wm.mkX11 ["GameWindowV2"; "GameWindow"] [] =
       wm.FindWindow world_untitled wm.mkX11 ["GameWindow"]
         [searchEvent "GameWindowV2"; nameEvent "111"].
Proof.
  split.
  - apply (proj2 (proj2 (FindWindow_never_errors world_empty wm.mkX11
                           ["GameWindowV2"; "GameWindow"] []))).
    intros class t0 _. left. discriminate.
  - apply (proj1 (proj2 (FindWindow_never_errors world_untitled wm.mkX11 [] []))
             "GameWindowV2" ["GameWindow"] []).
    right. right. discriminate.
Defined.

(** [FocusWindow] always returns. *)
Lemma FocusWindow_total (w : World) (x : wm.X11) (win : wm.Window) (t : trace) :
  exists err t', wm.FocusWindow w x win t = (Done err, t').
Proof.
  unfold wm.FocusWindow. destruct (String.eqb (wm.ID win) "").
  - eexists. eexists. reflexivity.
  - unfold bind, CmdRun, call, Sleep, emit, ret.
    destruct (cmd_run w t "xdotool" _); eexists; eexists; reflexivity.
Qed.

(** C2: for a window whose identifier is empty [FocusWindow] returns the
    error of the invalid argument and makes no call at all, so the trace is
    as it was; for a window with an identifier the first thing it does is to
    call [xdotool windowactivate] on it. *)
Theorem FocusWindow_empty_ID (w : World) (x : wm.X11) (win : wm.Window)
    (t : trace) :
  (wm.ID win = "" ->
   wm.FocusWindow w x win t =
     (Done (Some "cannot focus window: no window ID provided"), t))
  /\ (wm.ID win <> "" ->
      exists err evs,
        wm.FocusWindow w x win t =
          (Done err,
           t ++ EvRun "xdotool" ["windowactivate"; wm.ID win] :: evs)).
Proof.
  unfold wm.FocusWindow. split.
  - intros ->. reflexivity.
  - intros Hid. apply String.eqb_neq in Hid. rewrite Hid.
    run_go. destruct (cmd_run w t "xdotool" _) as [e|]; run_go.
    + exists (Errorf_w "failed to focus window: " e), []. reflexivity.
    + exists None, [EvSleep (100 * Millisecond)].
      rewrite <- app_assoc. reflexivity.
Qed.

(** C2 on [Window{ID: ""}] and on the window 222. *)
Lemma FocusWindow_empty_ID_witness :
  wm.FocusWindow world_fallback wm.mkX11 (wm.mkWindow "" "") [] =
    (Done (Some "cannot focus window: no window ID provided"), [])
  /\ exists err evs,
       wm.FocusWindow world_fallback wm.mkX11 (wm.mkWindow "222" "GameWindow") [] =
         (Done err, EvRun "xdotool" ["windowactivate"; "222"] :: evs).
Proof.
  split.
  - apply (proj1 (FocusWindow_empty_ID world_fallback wm.mkX11
                    (wm.mkWindow "" "") [])).
    reflexivity.
  - apply (proj2 (FocusWindow_empty_ID world_fallback wm.mkX11
                    (wm.mkWindow "222" "GameWindow") [])).
    discriminate.
Defined.

(** C7: whenever [FocusWindow] returns [nil], the call of
    [xdotool windowactivate] succeeded and was followed by a sleep of 100
    milliseconds, after which nothing else happened before the return. *)
Theorem FocusWindow_settle_delay (w : World) (x : wm.X11) (win : wm.Window)
    (t t' : trace) :
  wm.FocusWindow w x win t = (Done None, t') ->
  cmd_run w t "xdotool" ["windowactivate"; wm.ID win] = None
  /\ t' = t ++ [EvRun "xdotool" ["windowactivate"; wm.ID win];
                EvSleep (100 * Millisecond)].
Proof.
  unfold wm.FocusWindow. destruct (String.eqb (wm.ID win) "").
  - discriminate.
  - run_go. destruct (cmd_run w t "xdotool" _) as [e|]; run_go;
      [discriminate|].
    rewrite <- app_assoc. intros [= <-]. split; reflexivity.
Qed.

(** A focus succeeds exactly when the window has an identifier and the
    backend call succeeds. *)
Lemma FocusWindow_succeeds (w : World) (x : wm.X11) (win : wm.Window)
    (t : trace) :
  wm.ID win <> "" ->
  cmd_run w t "xdotool" ["windowactivate"; wm.ID win] = None ->
  wm.FocusWindow w x win t =
    (Done None,
     t ++ [EvRun "xdotool" ["windowactivate"; wm.ID win];
           EvSleep (100 * Millisecond)]).
Proof.
  intros Hid Hrun. unfold wm.FocusWindow.
  apply String.eqb_neq in Hid. rewrite Hid.
  run_go. rewrite Hrun. run_go. rewrite <- app_assoc. reflexivity.
Qed.

(** C7 on the window 222. *)
Lemma FocusWindow_settle_delay_witness :
  cmd_run world_fallback [] "xdotool" ["windowactivate"; "222"] = None
  /\ [EvRun "xdotool" ["windowactivate"; "222"]; EvSleep 100000000] =
     [EvRun "xdotool" ["windowactivate"; "222"]; EvSleep (100 * Millisecond)].
Proof.
  apply (FocusWindow_settle_delay world_fallback wm.mkX11
           (wm.mkWindow "222" "GameWindow") [] [_; _]).
  reflexivity.
Defined.

(** C4: [NewX11] looks for xdotool before anything else; when the lookup
    fails it returns that error, wrapped, and no backend; when it succeeds it
    returns the backend. *)
Theorem NewX11_requires_xdotool (w : World) (t : trace) :
  (forall e,
     snd (look_path w t "xdotool") = Some e ->
     wm.NewX11 w t =
       (Done (None,
              Some ("xdotool is required for X11 support but was not found: "
                 ++ e)%string),
        t ++ [EvLookPath "xdotool"]))
  /\ (snd (look_path w t "xdotool") = None ->
      wm.NewX11 w t = (Done (Some wm.mkX11, None), t ++ [EvLookPath "xdotool"])).
Proof.
  unfold wm.NewX11, bind, LookPath, call, ret.
  destruct (look_path w t "xdotool") as [path err]. simpl.
  split.
  - intros e ->. reflexivity.
  - intros ->. reflexivity.
Qed.

(** C4 on a machine without xdotool and on one with it. *)
Lemma NewX11_requires_xdotool_witness :
  wm.NewX11 world_bare [] =
    (Done (None,
           Some ("xdotool is required for X11 support but was not found: "
                 ++ "executable file not found in $PATH")%string),
     [EvLookPath "xdotool"])
  /\ wm.NewX11 world_fallback [] = (Done (Some wm.mkX11, None), [EvLookPath "xdotool"]).
Proof.
  split.
  - apply (proj1 (NewX11_requires_xdotool world_bare [])). reflexivity.
  - apply (proj2 (NewX11_requires_xdotool world_fallback [])). reflexivity.
Defined.

(** ** The application core *)

(** When rofi is absent [checkDependencies] returns the error that names
    it, having done no more than log and look it up. *)
Lemma checkDependencies_missing (w : World) (t : trace) :
  absent w "rofi" ->
  exists evs,
    app.checkDependencies w t = (Done (Some rofi_missing), t ++ evs)
    /\ existsb background_work evs = false.
Proof.
  intros Habsent. unfold app.checkDependencies, app.checkDependencies_loop.
  run_go.
  destruct (look_path w (t ++ [EvLog LevelInfo "Checking system dependencies" None []])
              "rofi") as [path [e|]] eqn:Hlook.
  - run_go. eexists. split.
    + repeat rewrite <- app_assoc. reflexivity.
    + reflexivity.
  - exfalso.
    apply (Habsent (t ++ [EvLog LevelInfo "Checking system dependencies" None []])).
    rewrite Hlook. reflexivity.
Qed.

(** When every dependency is found [checkDependencies] returns [nil]. *)
Lemma checkDependencies_satisfied (w : World) (t : trace) :
  (forall t', snd (look_path w t' "rofi") = None) ->
  exists evs, app.checkDependencies w t = (Done None, t ++ evs).
Proof.
  intros Hfound. unfold app.checkDependencies, app.checkDependencies_loop.
  run_go.
  specialize (Hfound (t ++ [EvLog LevelInfo "Checking system dependencies" None []])).
  destruct (look_path w _ "rofi") as [path err]. simpl in Hfound. subst err.
  run_go. eexists. repeat rewrite <- app_assoc. reflexivity.
Qed.

(** C3: when rofi, the helper binary the application requires, is absent,
    [NewPOEHelper] returns no helper and the error that names rofi; the last
    thing it does is to show that error through the notifier, and before that
    it neither creates the trade manager nor creates or starts the log
    watcher. *)
Theorem NewPOEHelper_dependency_missing (w : World) (t : trace) :
  absent w "rofi" ->
  exists evs,
    app.NewPOEHelper w t =
      (Done (None, Some rofi_missing),
       t ++ evs ++ [EvShow rofi_missing NotifyError])
    /\ existsb background_work evs = false.
Proof.
  intros Habsent. unfold app.NewPOEHelper. run_go.
  match goal with
  | |- context [app.checkDependencies w ?t0] =>
      destruct (checkDependencies_missing w t0 Habsent) as (evs & Hcheck & Hquiet);
      rewrite Hcheck
  end.
  run_go.
  exists ([EvLog LevelInfo "Creating new POE Helper instance" None [];
           EvLog LevelDebug "Initializing POEHelper" None
             [("log_path", VString (PoeLogPath (config w)));
              ("notify_command", VString (NotifyCommand (config w)));
              ("trigger_count",
               VInt (Z.of_nat (List.length (CompiledTriggers (config w)))))]]
          ++ evs
          ++ [EvLog LevelError "Dependency check failed" (Some rofi_missing)
                [("details", VString "Required dependencies not found")]]).
  split.
  - repeat rewrite <- app_assoc. reflexivity.
  - rewrite existsb_app, existsb_app, Hquiet. reflexivity.
Qed.

(** On a machine with rofi [NewPOEHelper] builds the helper, with the trade
    manager and the log watcher the world hands out. *)
Example NewPOEHelper_builds_helper :
  fst (app.NewPOEHelper world_fallback []) =
    Done (Some (app.mkPOEHelper [] (Some (LogWatcherAt 2))
                  (Some (TradeManagerAt 1))), None).
Proof. reflexivity. Qed.

(** C3 on a machine without rofi. *)
Lemma NewPOEHelper_dependency_missing_witness :
  exists evs,
    app.NewPOEHelper world_bare [] =
      (Done (None, Some rofi_missing), evs ++ [EvShow rofi_missing NotifyError])
    /\ existsb background_work evs = false.
Proof.
  apply (NewPOEHelper_dependency_missing world_bare []).
  intros t. discriminate.
Defined.

(** What [Stop] does: it logs, stops the log watcher when there is one, and
    logs again. *)
Lemma Stop_trace (p : app.POEHelper) (t : trace) :
  app.Stop p t =
    (Done None,
     t ++ EvLog LevelInfo "Initiating POE Helper shutdown" None []
       :: match app.poeLogWatcher p with
          | Some lw =>
              [EvLog LevelDebug "Stopping log watcher" None []; EvWatcherStop lw]
          | None => []
          end
       ++ [EvLog LevelInfo "POE Helper shutdown complete" None
             [("status", VString "stopped");
              ("processed_entries",
               VInt (Z.of_nat (List.length (app.entries p))))]]).
Proof.
  unfold app.Stop. run_go.
  destruct (app.poeLogWatcher p) as [lw|]; run_go;
    repeat rewrite <- app_assoc; reflexivity.
Qed.

(** C9: [Stop] always returns, and what it returns is [nil], whatever the
    helper; it stops the log watcher when the helper has one, and with a
    [nil] log watcher it stops nothing. *)
Theorem Stop_returns_nil (p : app.POEHelper) (t : trace) :
  exists evs,
    app.Stop p t = (Done None, t ++ evs)
    /\ existsb is_watcher_stop evs =
         match app.poeLogWatcher p with Some _ => true | None => false end.
Proof.
  rewrite Stop_trace. eexists. split; [reflexivity|].
  destruct (app.poeLogWatcher p); reflexivity.
Qed.

(** [Stop] on a helper without log watcher, as [NewPOEHelper] leaves it
    before the log watcher is created. *)
Example Stop_nil_watcher :
  app.Stop (app.mkPOEHelper [] None (Some (TradeManagerAt 1))) [] =
    (Done None,
     [EvLog LevelInfo "Initiating POE Helper shutdown" None [];
      EvLog LevelInfo "POE Helper shutdown complete" None
        [("status", VString "stopped"); ("processed_entries", VInt 0)]]).
Proof. reflexivity. Qed.

Lemma Run_startup_stops_nothing (w : World) (p : app.POEHelper) (t : trace) :
  existsb is_watcher_stop (Run_startup w p t) = false.
Proof.
  unfold Run_startup. destruct (notifier_show w _ _ _); reflexivity.
Qed.

(** [Run] up to the wait: what follows depends on the signal. *)
Lemma Run_until_signal (w : World) (p : app.POEHelper) (t : trace) :
  app.Run w p t =
    match signal_recv w (t ++ Run_startup w p t) with
    | Some sig =>
        app.Stop p
          (t ++ Run_startup w p t
             ++ [EvSignal sig;
                 EvLog LevelInfo "Shutdown signal received" None
                   [("signal", VString (Signal_String sig))]])
    | None => (Blocked, t ++ Run_startup w p t)
    end.
Proof.
  unfold app.Run, app.waitForShutdown, Run_startup. run_go.
  repeat rewrite <- app_assoc. simpl.
  destruct (notifier_show w _ "POE Helper started" NotifyInfo) as [e|];
    run_go; unfold Receive; repeat rewrite <- app_assoc; simpl;
    destruct (signal_recv w _) as [sig|]; run_go;
    repeat rewrite <- app_assoc; reflexivity.
Qed.

(** C6: when the helper has a log watcher and the signal the main goroutine
    waits for arrives, [Run] returns [nil], and between the receipt of the
    signal, SIGINT or SIGTERM, and the return the log watcher is stopped;
    it is not stopped before the signal, and it was started before it. *)
Theorem Run_stops_watcher_after_signal (w : World) (p : app.POEHelper)
    (lw : LogWatcher) (t : trace) :
  app.poeLogWatcher p = Some lw ->
  (forall t', signal_recv w t' <> None) ->
  exists sig pre mid post,
    app.Run w p t =
      (Done None, t ++ pre ++ EvSignal sig :: mid ++ EvWatcherStop lw :: post)
    /\ (sig = SIGINT \/ sig = SIGTERM)
    /\ existsb is_watcher_stop pre = false
    /\ In (EvGoWatch (Some lw)) pre.
Proof.
  intros Hlw Hsig. rewrite Run_until_signal.
  specialize (Hsig (t ++ Run_startup w p t)).
  destruct (signal_recv w (t ++ Run_startup w p t)) as [sig|]; [|congruence].
  rewrite Stop_trace, Hlw.
  exists sig, (Run_startup w p t),
    [EvLog LevelInfo "Shutdown signal received" None
       [("signal", VString (Signal_String sig))];
     EvLog LevelInfo "Initiating POE Helper shutdown" None [];
     EvLog LevelDebug "Stopping log watcher" None []],
    [EvLog LevelInfo "POE Helper shutdown complete" None
       [("status", VString "stopped");
        ("processed_entries", VInt (Z.of_nat (List.length (app.entries p))))]].
  repeat split.
  - repeat rewrite <- app_assoc. reflexivity.
  - destruct sig; [left|right]; reflexivity.
  - apply Run_startup_stops_nothing.
  - unfold Run_startup. rewrite Hlw. apply in_or_app. right.
    apply in_or_app. right. left. reflexivity.
Qed.

(** C6 for the helper [NewPOEHelper] builds on a machine with rofi, when
    SIGTERM arrives. *)
Lemma Run_stops_watcher_after_signal_witness :
  exists sig pre mid post,
    app.Run world_fallback (app.mkPOEHelper [] (Some (LogWatcherAt 2))
                              (Some (TradeManagerAt 1))) [] =
      (Done None,
       pre ++ EvSignal sig :: mid ++ EvWatcherStop (LogWatcherAt 2) :: post)
    /\ (sig = SIGINT \/ sig = SIGTERM)
    /\ existsb is_watcher_stop pre = false
    /\ In (EvGoWatch (Some (LogWatcherAt 2))) pre.
Proof.
  apply (Run_stops_watcher_after_signal world_fallback
           (app.mkPOEHelper [] (Some (LogWatcherAt 2)) (Some (TradeManagerAt 1)))
           (LogWatcherAt 2) []).
  - reflexivity.
  - intros t'. discriminate.
Defined.

(** As long as no signal arrives [Run] does not return and stops nothing. *)
Lemma Run_waits_for_signal (w : World) (p : app.POEHelper) (t : trace) :
  signal_recv w (t ++ Run_startup w p t) = None ->
  app.Run w p t = (Blocked, t ++ Run_startup w p t)
  /\ existsb is_watcher_stop (Run_startup w p t) = false.
Proof.
  intros Hnone. rewrite Run_until_signal, Hnone.
  split; [reflexivity|apply Run_startup_stops_nothing].
Qed.

(** [Run] in a world where no signal arrives. *)
Example Run_without_signal :
  let p := app.mkPOEHelper [] (Some (LogWatcherAt 2)) (Some (TradeManagerAt 1)) in
  fst (app.Run (without_signal world_fallback) p []) = Blocked
  /\ existsb is_watcher_stop (snd (app.Run (without_signal world_fallback) p []))
     = false.
Proof. split; reflexivity. Qed.

(** C10: [handleTradeEntry] hands the entry to the trade manager and
    returns; when [AddTrade] answers an error the only thing it does with it
    is to log it, with the player and the item of the entry. *)
Theorem handleTradeEntry_swallows_error (w : World) (p : app.POEHelper)
    (entry : models.TradeEntry) (t : trace) :
  app.handleTradeEntry w p entry t =
    (Done tt,
     t ++ EvAddTrade (app.tradeManager p) entry
       :: match add_trade w t (app.tradeManager p) entry with
          | Some e =>
              [EvLog LevelError "Failed to process trade in manager" (Some e)
                 [("player", VString (models.PlayerName entry));
                  ("item", VString (models.ItemName entry))]]
          | None => []
          end).
Proof.
  unfold app.handleTradeEntry, app.AddTrade. run_go.
  destruct (add_trade w t (app.tradeManager p) entry) as [e|]; run_go;
    repeat rewrite <- app_assoc; reflexivity.
Qed.

(** An entry the trade manager refuses: the callback returns all the same. *)
Example handleTradeEntry_refused :
  let p := app.mkPOEHelper [] None (Some (TradeManagerAt 1)) in
  app.handleTradeEntry (refusing_trades world_fallback) p mirror_trade [] =
    (Done tt,
     [EvAddTrade (Some (TradeManagerAt 1)) mirror_trade;
      EvLog LevelError "Failed to process trade in manager"
        (Some "storage unavailable")
        [("player", VString "Exile"); ("item", VString "Mirror")]]).
Proof. reflexivity. Qed.

(** ** The trade registry *)

Lemma key_eqb_refl (k : models.DedupKey) : trade_manager.key_eqb k k = true.
Proof.
  destruct k as [[player item] bucket]. unfold trade_manager.key_eqb.
  rewrite !String.eqb_refl, Z.eqb_refl. reflexivity.
Qed.

Lemma key_eqb_eq (k1 k2 : models.DedupKey) :
  trade_manager.key_eqb k1 k2 = true <-> k1 = k2.
Proof.
  destruct k1 as [[p1 i1] b1], k2 as [[p2 i2] b2]. unfold trade_manager.key_eqb.
  rewrite !andb_true_iff, !String.eqb_eq, Z.eqb_eq.
  split.
  - intros [[-> ->] ->]. reflexivity.
  - intros [= -> -> ->]. auto.
Qed.

(** The registry holds a live entry with the key [k]. *)
Lemma live_entry_found (width : Z) (k : models.DedupKey) (l : list models.TradeEntry)
    (e : models.TradeEntry) :
  In e l ->
  trade_manager.entryKey width e = k ->
  trade_manager.terminal (models.State e) = false ->
  existsb (trade_manager.live_with_key width k) l = true.
Proof.
  intros Hin Hkey Hlive. apply existsb_exists. exists e. split; [exact Hin|].
  unfold trade_manager.live_with_key.
  rewrite Hkey, key_eqb_refl, Hlive. reflexivity.
Qed.

(** When the lookup of [AddTrade] hits, the registry is left as it is. *)
Lemma AddTrade_hit (d : trade_manager.ParsedLine) (r : trade_manager.Registry) :
  existsb (trade_manager.live_with_key (trade_manager.bucket_width r)
             (trade_manager.lineKey (trade_manager.bucket_width r) d))
    (trade_manager.trades r) = true ->
  trade_manager.AddTrade d r = (trade_manager.DuplicateIgnored, r).
Proof.
  intros Hhit. unfold trade_manager.AddTrade. rewrite Hhit. reflexivity.
Qed.

(** C5: when the registry holds an entry that is not terminal and whose
    dedup key, made of player name, item name and time bucket, is the key of
    the line, [AddTrade] leaves the registry as it is and answers
    duplicate-ignored. *)
Theorem AddTrade_duplicate_ignored (d : trade_manager.ParsedLine)
    (r : trade_manager.Registry) (e : models.TradeEntry) :
  In e (trade_manager.trades r) ->
  trade_manager.entryKey (trade_manager.bucket_width r) e =
    trade_manager.lineKey (trade_manager.bucket_width r) d ->
  trade_manager.terminal (models.State e) = false ->
  trade_manager.AddTrade d r = (trade_manager.DuplicateIgnored, r).
Proof.
  intros Hin Hkey Hlive. apply AddTrade_hit.
  apply live_entry_found with (e := e); assumption.
Qed.

(** After [AddTrade] the registry holds a live entry with the key of the
    line, whether the line was added or ignored. *)
Lemma AddTrade_live_entry (d : trade_manager.ParsedLine)
    (r : trade_manager.Registry) :
  let r' := snd (trade_manager.AddTrade d r) in
  trade_manager.bucket_width r' = trade_manager.bucket_width r
  /\ exists e,
       In e (trade_manager.trades r')
       /\ trade_manager.entryKey (trade_manager.bucket_width r) e =
            trade_manager.lineKey (trade_manager.bucket_width r) d
       /\ trade_manager.terminal (models.State e) = false.
Proof.
  unfold trade_manager.AddTrade.
  destruct (existsb _ (trade_manager.trades r)) eqn:Hdup; simpl.
  - split; [reflexivity|].
    apply existsb_exists in Hdup. destruct Hdup as (e & Hin & Hlive).
    unfold trade_manager.live_with_key in Hlive.
    apply andb_true_iff in Hlive. destruct Hlive as [Hkey Hstate].
    exists e. split; [exact Hin|]. split.
    + apply key_eqb_eq. exact Hkey.
    + apply negb_true_iff. exact Hstate.
  - split; [reflexivity|].
    eexists. split; [apply in_or_app; right; left; reflexivity|].
    split; reflexivity.
Qed.

(** Adding twice lines with the same key: the second call changes nothing,
    so the registry holds one entry for them, not two. *)
Lemma AddTrade_twice (d d' : trade_manager.ParsedLine)
    (r : trade_manager.Registry) :
  trade_manager.lineKey (trade_manager.bucket_width r) d' =
    trade_manager.lineKey (trade_manager.bucket_width r) d ->
  trade_manager.AddTrade d' (snd (trade_manager.AddTrade d r)) =
    (trade_manager.DuplicateIgnored, snd (trade_manager.AddTrade d r)).
Proof.
  intros Hsame.
  destruct (AddTrade_live_entry d r) as (Hwidth & e & Hin & Hkey & Hlive).
  apply AddTrade_hit. apply live_entry_found with (e := e).
  - exact Hin.
  - rewrite Hwidth, Hkey, Hsame. reflexivity.
  - exact Hlive.
Qed.

(** C5 on a registry with one new entry and a line of the same player, item
    and minute. *)
Lemma AddTrade_duplicate_ignored_witness :
  trade_manager.AddTrade
    (trade_manager.mkParsedLine "Exile" "Mirror" "again" 1730) mirror_registry =
    (trade_manager.DuplicateIgnored, mirror_registry).
Proof.
  apply (AddTrade_duplicate_ignored
           (trade_manager.mkParsedLine "Exile" "Mirror" "again" 1730)
           mirror_registry mirror_trade).
  - left. reflexivity.
  - reflexivity.
  - reflexivity.
Defined.

(** A line of the same player and item in another time bucket is added. *)
Example AddTrade_other_bucket :
  fst (trade_manager.AddTrade
         (trade_manager.mkParsedLine "Exile" "Mirror" "later" 1800)
         mirror_registry) = trade_manager.Success.
Proof. reflexivity. Qed.

(** * Further properties *)

(** ** The search of [FindWindow] *)

Lemma probe_events_queries (w : World) (t : trace) (class : string) :
  forallb is_query (probe_events w t class) = true.
Proof.
  unfold probe_events. destruct (window_exists w t class); reflexivity.
Qed.

Lemma probe_events_class (w : World) (t : trace) (class : string) :
  classes_searched (probe_events w t class) = [class].
Proof.
  unfold probe_events. destruct (window_exists w t class); reflexivity.
Qed.

Lemma probe_events_length (w : World) (t : trace) (class : string) :
  (List.length (probe_events w t class) <= 2)%nat.
Proof.
  unfold probe_events. destruct (window_exists w t class); simpl; lia.
Qed.

Lemma probes_queries (w : World) (classNames : list string) :
  forall t, forallb is_query (probes w t classNames) = true.
Proof.
  induction classNames as [|c rest IH]; intros t; simpl.
  - reflexivity.
  - rewrite forallb_app, probe_events_queries, IH. reflexivity.
Qed.

Lemma probes_classes (w : World) (classNames : list string) :
  forall t, classes_searched (probes w t classNames) = classNames.
Proof.
  induction classNames as [|c rest IH]; intros t; simpl.
  - reflexivity.
  - unfold classes_searched in *. rewrite flat_map_app.
    fold (classes_searched (probe_events w t c)).
    rewrite probe_events_class, IH. reflexivity.
Qed.

Lemma probes_length (w : World) (classNames : list string) :
  forall t, (List.length (probes w t classNames) <= 2 * List.length classNames)%nat.
Proof.
  induction classNames as [|c rest IH]; intros t; simpl.
  - lia.
  - rewrite length_app.
    pose proof (probe_events_length w t c).
    pose proof (IH (t ++ probe_events w t c)). lia.
Qed.

(** How a run of [FindWindow] goes: it passes over the classes before the
    one it accepts, or over all of them. *)
Lemma FindWindow_run (w : World) (x : wm.X11) (classNames : list string) :
  forall t,
    (exists pre class post,
       classNames = pre ++ class :: post
       /\ usable w (t ++ probes w t pre) class = true
       /\ wm.FindWindow w x classNames t =
            (Done (wm.mkWindow (firstID w (t ++ probes w t pre) class) class, None),
             t ++ probes w t pre ++ probe_events w (t ++ probes w t pre) class))
    \/ wm.FindWindow w x classNames t =
         (Done (wm.zeroWindow, None), t ++ probes w t classNames).
Proof.
  induction classNames as [|c rest IH]; intros t.
  - right. simpl. rewrite app_nil_r. reflexivity.
  - rewrite FindWindow_cons. destruct (usable w t c) eqn:Husable.
    + left. exists [], c, rest. simpl. rewrite app_nil_r.
      split; [reflexivity|]. split; [exact Husable|reflexivity].
    + destruct (IH (t ++ probe_events w t c))
        as [(pre & class & post & Hlist & Hok & Hrun)|Hrun].
      * left. exists (c :: pre), class, post. simpl.
        rewrite <- !app_assoc in Hok. rewrite <- !app_assoc in Hrun.
        rewrite <- !app_assoc.
        split; [rewrite Hlist; reflexivity|].
        split; [exact Hok|exact Hrun].
      * right. simpl. rewrite app_assoc. exact Hrun.
Qed.

(** The first piece [strings.Split] cuts holds no separator. *)
Lemma Split_first_piece (s : string) (sep : ascii) :
  has_byte sep (nth 0 (strings.Split s sep) "") = false.
Proof.
  unfold has_byte. induction s as [|a r IH]; simpl.
  - reflexivity.
  - destruct (Ascii.eqb a sep) eqn:Hsep; [reflexivity|].
    destruct (strings.Split r sep) as [|piece l] eqn:Hsplit.
    + exfalso. exact (Split_nonempty r sep Hsplit).
    + simpl in *. rewrite IH, Ascii.eqb_sym, Hsep. reflexivity.
Qed.


(** X2: the identifier of the window [FindWindow] returns is one line: it
    holds no line feed, however many windows the search lists. *)
Theorem FindWindow_ID_one_line (w : World)
    (classNames : list string) (t : trace) :
  exists win t',
    wm.FindWindow w wm.mkX11 classNames t = (Done (win, None), t')
    /\ has_byte newline (wm.ID win) = false.
Proof.
  destruct (FindWindow_run w wm.mkX11 classNames t)
    as [(pre & class & post & Hlist & Hok & Hrun)|Hrun];
    rewrite Hrun; eexists; eexists; (split; [reflexivity|]).
  - apply Split_first_piece.
  - reflexivity.
Qed.

(** X3: all [FindWindow] does is to ask xdotool for the windows of a class
    and for the name of a window, at most twice for each class of the list;
    it activates no window and does not sleep.  On the empty list it asks
    nothing. *)
Theorem FindWindow_only_queries (w : World)
    (classNames : list string) (t : trace) :
  exists evs,
    snd (wm.FindWindow w wm.mkX11 classNames t) = t ++ evs
    /\ forallb is_query evs = true
    /\ (List.length evs <= 2 * List.length classNames)%nat.
Proof.
  destruct (FindWindow_run w wm.mkX11 classNames t)
    as [(pre & class & post & Hlist & Hok & Hrun)|Hrun];
    rewrite Hrun; eexists; (split; [reflexivity|]).
  - rewrite forallb_app, probes_queries, probe_events_queries.
    split; [reflexivity|].
    rewrite length_app, Hlist, length_app. simpl.
    pose proof (probes_length w pre t).
    pose proof (probe_events_length w (t ++ probes w t pre) class). lia.
  - split; [apply probes_queries|apply probes_length].
Qed.

(** X4: [FindWindow] searches for the classes in the order of the list,
    each at most once, and stops at the class it accepts: the classes
    searched for are a prefix of the list that ends with the class of the
    window returned, or the whole list when [Window{}] is returned for want
    of a usable class. *)
Theorem FindWindow_search_order (w : World)
    (classNames : list string) (t : trace) :
  exists win evs rest,
    wm.FindWindow w wm.mkX11 classNames t = (Done (win, None), t ++ evs)
    /\ classNames = classes_searched evs ++ rest
    /\ ((win = wm.zeroWindow /\ rest = [])
        \/ exists pre, classes_searched evs = pre ++ [wm.Class_ win]).
Proof.
  destruct (FindWindow_run w wm.mkX11 classNames t)
    as [(pre & class & post & Hlist & Hok & Hrun)|Hrun]; rewrite Hrun.
  - eexists. eexists. exists post. split; [reflexivity|].
    unfold classes_searched. rewrite flat_map_app.
    fold (classes_searched (probes w t pre)).
    fold (classes_searched (probe_events w (t ++ probes w t pre) class)).
    rewrite probes_classes, probe_events_class, <- app_assoc.
    split; [exact Hlist|]. right. exists pre. reflexivity.
  - eexists. eexists. exists []. split; [reflexivity|].
    rewrite probes_classes, app_nil_r.
    split; [reflexivity|]. left. split; reflexivity.
Qed.

(** X5: when no class of the list is usable, focusing the window that
    [FindWindow] answers is refused: the error of the missing identifier
    comes back and xdotool was asked questions only, no window was
    activated. *)
Theorem find_then_focus_not_found (w : World) (x : wm.X11)
    (classNames : list string) (t : trace) :
  (forall c t', In c classNames -> usable w t' c = false) ->
  exists evs,
    find_then_focus w x classNames t =
      (Done (Some "cannot focus window: no window ID provided"), t ++ evs)
    /\ forallb is_query evs = true.
Proof.
  intros Hnone. unfold find_then_focus, bind.
  destruct (FindWindow_run w x classNames t)
    as [(pre & class & post & Hlist & Hok & Hrun)|Hrun].
  - rewrite Hnone in Hok; [discriminate|].
    rewrite Hlist. apply in_or_app. right. left. reflexivity.
  - rewrite Hrun. exists (probes w t classNames).
    split; [reflexivity|apply probes_queries].
Qed.

(** X5 in a world without windows. *)
Lemma find_then_focus_not_found_witness :
  exists evs,
    find_then_focus world_empty wm.mkX11 ["GameWindowV2"; "GameWindow"] [] =
      (Done (Some "cannot focus window: no window ID provided"), evs)
    /\ forallb is_query evs = true.
Proof.
  apply (find_then_focus_not_found world_empty wm.mkX11
           ["GameWindowV2"; "GameWindow"] []).
  intros c t' _. reflexivity.
Defined.

(** ** The failures of [FocusWindow] *)

(** X6: when [FocusWindow] returns an error it has not slept, and the error
    is either the one of the missing identifier, with nothing done, or the
    error of [xdotool windowactivate] behind the words "failed to focus
    window", with that call the only thing done. *)
Theorem FocusWindow_failure (w : World) (x : wm.X11) (win : wm.Window)
    (t t' : trace) (e : string) :
  wm.FocusWindow w x win t = (Done (Some e), t') ->
  (wm.ID win = ""
   /\ e = "cannot focus window: no window ID provided" /\ t' = t)
  \/ (wm.ID win <> ""
      /\ exists e0,
           cmd_run w t "xdotool" ["windowactivate"; wm.ID win] = Some e0
           /\ e = ("failed to focus window: " ++ e0)%string
           /\ t' = t ++ [EvRun "xdotool" ["windowactivate"; wm.ID win]]).
Proof.
  unfold wm.FocusWindow.
  destruct (String.eqb (wm.ID win) "") eqn:Hid.
  - apply String.eqb_eq in Hid. intros [= <- <-]. left. auto.
  - apply String.eqb_neq in Hid. run_go.
    destruct (cmd_run w t "xdotool" _) as [e0|]; run_go.
    + intros [= <- <-]. right. split; [exact Hid|].
      exists e0. auto.
    + discriminate.
Qed.

(** X6 on a window that is gone. *)
Lemma FocusWindow_failure_witness :
  exists e0,
    cmd_run world_fallback [] "xdotool" ["windowactivate"; "999"] = Some e0
    /\ "failed to focus window: exit status 1" =
         ("failed to focus window: " ++ e0)%string.
Proof.
  destruct (FocusWindow_failure world_fallback wm.mkX11
              (wm.mkWindow "999" "GameWindow") []
              [EvRun "xdotool" ["windowactivate"; "999"]]
              "failed to focus window: exit status 1" eq_refl)
    as [[Hid _]|[_ [e0 [Hrun [Hmsg _]]]]].
  - discriminate Hid.
  - exists e0. split; [exact Hrun|exact Hmsg].
Defined.

(** ** The construction of the helper *)

(** Finds an event in a list that is written out. *)
Ltac find_event := repeat (first [left; reflexivity | right]).

(** What [checkDependencies] does, by the answer to the lookup of rofi. *)
Lemma checkDependencies_run (w : World) (t : trace) :
  app.checkDependencies w t =
    let t0 := t ++ [EvLog LevelInfo "Checking system dependencies" None []] in
    match snd (look_path w t0 "rofi") with
    | Some e =>
        (Done (Some rofi_missing),
         t0 ++ [EvLookPath "rofi";
                EvLog LevelInfo "Dependency check failed" None
                  [("missing_dependency", VString "rofi");
                   ("error", VError (Some e))]])
    | None =>
        (Done None,
         t0 ++ [EvLookPath "rofi";
                EvLog LevelInfo "All dependencies satisfied" None []])
    end.
Proof.
  unfold app.checkDependencies, app.checkDependencies_loop. run_go.
  destruct (look_path w _ "rofi") as [path [e|]]; run_go; simpl;
    repeat rewrite <- app_assoc; reflexivity.
Qed.

(** What [NewPOEHelper] does, by the answers to the lookup of rofi and to
    the creation of the log watcher. *)
Lemma NewPOEHelper_run (w : World) (t : trace) :
  app.NewPOEHelper w t =
    let t0 := t ++ NewPOEHelper_prelude w in
    match snd (look_path w t0 "rofi") with
    | Some e =>
        (Done (None, Some rofi_missing),
         t0 ++ [EvLookPath "rofi";
                EvLog LevelInfo "Dependency check failed" None
                  [("missing_dependency", VString "rofi");
                   ("error", VError (Some e))];
                EvLog LevelError "Dependency check failed" (Some rofi_missing)
                  [("details", VString "Required dependencies not found")];
                EvShow rofi_missing NotifyError])
    | None =>
        let tm :=
          new_trade_manager w
            (t0 ++ [EvLookPath "rofi";
                    EvLog LevelInfo "All dependencies satisfied" None []]) in
        let t1 := t0 ++ NewPOEHelper_setup in
        match new_log_watcher w t1 with
        | (_, Some e) =>
            (Done (None, Some ("failed to initialize log watcher: " ++ e)%string),
             t1 ++ [EvNewLogWatcher tm;
                    EvLog LevelError "Log watcher initialization failed" (Some e)
                      [("details",
                        VString "Failed to create log watcher instance")]])
        | (lw, None) =>
            (Done (Some (app.mkPOEHelper [] lw tm), None),
             t1 ++ [EvNewLogWatcher tm])
        end
    end.
Proof.
  unfold app.NewPOEHelper, app.NewTradeManager, app.NewLogWatcher,
    NewPOEHelper_prelude, NewPOEHelper_setup.
  run_go. rewrite checkDependencies_run. cbv zeta.
  repeat rewrite <- app_assoc. simpl.
  destruct (snd (look_path w _ "rofi")) as [e|]; run_go.
  - repeat rewrite <- app_assoc. reflexivity.
  - repeat rewrite <- app_assoc. simpl.
    destruct (new_log_watcher w _) as [lw [e|]]; run_go; simpl;
      repeat rewrite <- app_assoc; reflexivity.
Qed.

(** The dependencies that are found are looked up and passed. *)
Lemma checkDependencies_loop_found (w : World) (pre rest : list string) :
  forall t,
    (forall c t', In c pre -> snd (look_path w t' c) = None) ->
    app.checkDependencies_loop w (pre ++ rest) t =
      app.checkDependencies_loop w rest (t ++ map EvLookPath pre).
Proof.
  induction pre as [|c pre IH]; intros t Hfound; simpl.
  - rewrite app_nil_r. reflexivity.
  - run_go. pose proof (Hfound c t (or_introl eq_refl)) as Hc.
    destruct (look_path w t c) as [path err]. simpl in Hc. subst err.
    rewrite IH.
    + rewrite <- app_assoc. reflexivity.
    + intros c' t' Hin. apply Hfound. right. exact Hin.
Qed.

Lemma looked_up_lookups (files : list string) :
  looked_up (map EvLookPath files) = files.
Proof.
  unfold looked_up. induction files as [|f l IH]; simpl.
  - reflexivity.
  - rewrite IH. reflexivity.
Qed.

(** X7: the loop of [checkDependencies] looks the dependencies up in order
    and stops at the first that is not found: its error names that one, and
    the dependencies after it are not looked up.  When all are found it
    returns [nil], having looked up each once and logged nothing. *)
Theorem checkDependencies_loop_first_missing (w : World) (deps : list string)
    (t : trace) :
  (forall pre dep post,
     deps = pre ++ dep :: post ->
     (forall c t', In c pre -> snd (look_path w t' c) = None) ->
     absent w dep ->
     exists evs,
       app.checkDependencies_loop w deps t =
         (Done (Some (dep ++
            " is not installed. Please install it using your package manager")%string),
          t ++ evs)
       /\ looked_up evs = pre ++ [dep])
  /\ ((forall c t', In c deps -> snd (look_path w t' c) = None) ->
      app.checkDependencies_loop w deps t =
        (Done None, t ++ map EvLookPath deps)).
Proof.
  split.
  - intros pre dep post -> Hfound Habsent.
    rewrite (checkDependencies_loop_found w pre (dep :: post) t Hfound).
    simpl. run_go.
    pose proof (Habsent (t ++ map EvLookPath pre)) as Hdep.
    destruct (look_path w (t ++ map EvLookPath pre) dep) as [path [e|]];
      [|exfalso; apply Hdep; reflexivity].
    run_go. eexists. split.
    + repeat rewrite <- app_assoc. reflexivity.
    + unfold looked_up. rewrite flat_map_app.
      fold (looked_up (map EvLookPath pre)). rewrite looked_up_lookups.
      reflexivity.
  - intros Hfound.
    rewrite <- (app_nil_r deps) at 1.
    rewrite (checkDependencies_loop_found w deps [] t Hfound). reflexivity.
Qed.

(** X7 on a machine with rofi and without xdotool. *)
Lemma checkDependencies_loop_first_missing_witness :
  (exists evs,
     app.checkDependencies_loop (desktop ["rofi"] xdotool_empty)
       ["rofi"; "xdotool"; "notify-send"] [] =
       (Done (Some
          "xdotool is not installed. Please install it using your package manager"),
        evs)
     /\ looked_up evs = ["rofi"; "xdotool"])
  /\ app.checkDependencies_loop world_fallback ["rofi"; "xdotool"] [] =
       (Done None, [EvLookPath "rofi"; EvLookPath "xdotool"]).
Proof.
  split.
  - apply (proj1 (checkDependencies_loop_first_missing
                    (desktop ["rofi"] xdotool_empty)
                    ["rofi"; "xdotool"; "notify-send"] [])
             ["rofi"] "xdotool" ["notify-send"] eq_refl).
    + intros c t' [<-|[]]. reflexivity.
    + intros t'. discriminate.
  - apply (proj2 (checkDependencies_loop_first_missing world_fallback
                    ["rofi"; "xdotool"] [])).
    intros c t' [<-|[<-|[]]]; reflexivity.
Defined.

(** X8: [NewPOEHelper] always returns, with a helper and a [nil] error or
    with no helper and an error, never with both or neither.  A helper it
    returns has no entries, and its trade manager is the one the callback
    given to the log watcher hands entries to.  Whatever happens, rofi is
    looked up once and the log watcher is not started. *)
Theorem NewPOEHelper_helper_or_error (w : World) (t : trace) :
  exists made evs,
    app.NewPOEHelper w t = (Done made, t ++ evs)
    /\ match made with
       | (Some p, None) =>
           app.entries p = [] /\ In (EvNewLogWatcher (app.tradeManager p)) evs
       | (None, Some _) => True
       | _ => False
       end
    /\ looked_up evs = ["rofi"]
    /\ existsb is_go_watch evs = false.
Proof.
  rewrite NewPOEHelper_run. cbv zeta.
  unfold NewPOEHelper_prelude, NewPOEHelper_setup.
  destruct (snd (look_path w _ "rofi")) as [e|].
  - eexists. eexists. split; [rewrite <- app_assoc; reflexivity|].
    simpl. auto.
  - repeat rewrite <- app_assoc.
    destruct (new_log_watcher w _) as [lw [e|]];
      eexists; eexists; (split; [repeat rewrite <- app_assoc; reflexivity|]);
      simpl; repeat split; find_event.
Qed.

(** X9: when rofi is found and the log watcher cannot be created,
    [NewPOEHelper] returns no helper and the error of the log watcher behind
    the words "failed to initialize log watcher"; the trade manager was
    created by then, and, unlike a missing dependency, the failure is logged
    without being shown through the notifier. *)
Theorem NewPOEHelper_log_watcher_failure (w : World) (t : trace) (e : string) :
  (forall t', snd (look_path w t' "rofi") = None) ->
  (forall t', snd (new_log_watcher w t') = Some e) ->
  exists evs,
    app.NewPOEHelper w t =
      (Done (None, Some ("failed to initialize log watcher: " ++ e)%string),
       t ++ evs)
    /\ existsb is_show evs = false
    /\ In EvNewTradeManager evs
    /\ In (EvLog LevelError "Log watcher initialization failed" (Some e)
             [("details", VString "Failed to create log watcher instance")])
         evs.
Proof.
  intros Hrofi Hwatcher. rewrite NewPOEHelper_run. cbv zeta.
  rewrite Hrofi.
  unfold NewPOEHelper_prelude, NewPOEHelper_setup.
  repeat rewrite <- app_assoc.
  match goal with
  | |- context [new_log_watcher w ?t1] =>
      pose proof (Hwatcher t1) as Herr;
      destruct (new_log_watcher w t1) as [lw err]
  end.
  simpl in Herr. subst err.
  eexists. split; [repeat rewrite <- app_assoc; reflexivity|].
  simpl. repeat split; find_event.
Qed.

(** X9 on a machine with rofi where the log file is missing. *)
Lemma NewPOEHelper_log_watcher_failure_witness :
  exists evs,
    app.NewPOEHelper (without_log_file world_fallback) [] =
      (Done (None,
             Some "failed to initialize log watcher: no such file or directory"),
       evs)
    /\ existsb is_show evs = false
    /\ In EvNewTradeManager evs
    /\ In (EvLog LevelError "Log watcher initialization failed"
             (Some "no such file or directory")
             [("details", VString "Failed to create log watcher instance")])
         evs.
Proof.
  apply (NewPOEHelper_log_watcher_failure (without_log_file world_fallback) []
           "no such file or directory").
  - intros t'. reflexivity.
  - intros t'. reflexivity.
Defined.

(** X10: when rofi is found and the log watcher is created, [NewPOEHelper]
    returns a helper without entries that holds the log watcher and the
    trade manager it was handed, and the callback given to the log watcher
    is bound to that same trade manager; nothing is shown through the
    notifier. *)
Theorem NewPOEHelper_success (w : World) (t : trace)
    (lw : option LogWatcher) (tm : option TradeManager) :
  (forall t', snd (look_path w t' "rofi") = None) ->
  (forall t', new_trade_manager w t' = tm) ->
  (forall t', new_log_watcher w t' = (lw, None)) ->
  exists evs,
    app.NewPOEHelper w t =
      (Done (Some (app.mkPOEHelper [] lw tm), None),
       t ++ evs ++ [EvNewLogWatcher tm])
    /\ existsb is_show evs = false
    /\ In EvNewTradeManager evs.
Proof.
  intros Hrofi Htm Hlw. rewrite NewPOEHelper_run. cbv zeta.
  rewrite Hrofi, Hlw, Htm.
  exists (NewPOEHelper_prelude w ++ NewPOEHelper_setup).
  split; [repeat rewrite <- app_assoc; reflexivity|].
  split; [reflexivity|].
  apply in_or_app. right. unfold NewPOEHelper_setup. find_event.
Qed.

(** X10 on a machine with rofi. *)
Lemma NewPOEHelper_success_witness :
  exists evs,
    app.NewPOEHelper world_fallback [] =
      (Done (Some (app.mkPOEHelper [] (Some (LogWatcherAt 2))
                     (Some (TradeManagerAt 1))), None),
       evs ++ [EvNewLogWatcher (Some (TradeManagerAt 1))])
    /\ existsb is_show evs = false
    /\ In EvNewTradeManager evs.
Proof.
  apply (NewPOEHelper_success world_fallback [] (Some (LogWatcherAt 2))
           (Some (TradeManagerAt 1)));
    intros t'; reflexivity.
Defined.

(** ** The run of the service *)

(** X11: [Run] returns only once a signal was received, and what it returns
    then is [nil]: it never returns an error, and as long as no signal was
    received it does not return. *)
Theorem Run_returns_after_signal_only (w : World) (p : app.POEHelper)
    (t : trace) :
  exists evs,
    app.Run w p t =
      (if existsb is_signal evs then Done None else Blocked, t ++ evs).
Proof.
  rewrite Run_until_signal.
  destruct (signal_recv w (t ++ Run_startup w p t)) as [sig|].
  - rewrite Stop_trace. eexists.
    rewrite <- !app_assoc.
    match goal with
    | |- (_, t ++ ?evs) = _ =>
        replace (existsb is_signal evs) with true; [reflexivity|]
    end.
    symmetry. rewrite existsb_app. apply orb_true_iff. right. reflexivity.
  - exists (Run_startup w p t).
    replace (existsb is_signal (Run_startup w p t)) with false; [reflexivity|].
    unfold Run_startup. destruct (notifier_show w _ _ _); reflexivity.
Qed.

(** The startup of [Run] around the start of the goroutine. *)
Lemma Run_startup_split (w : World) (p : app.POEHelper) (t : trace) :
  exists pre,
    Run_startup w p t = pre ++ EvGoWatch (app.poeLogWatcher p) :: Run_waiting
    /\ In (EvShow "POE Helper started" NotifyInfo) pre
    /\ existsb background_work pre = false
    /\ existsb is_go_watch pre = false
    /\ existsb is_subscription pre = false
    /\ existsb is_watcher_stop pre = false.
Proof.
  unfold Run_startup. rewrite app_assoc. eexists. split; [reflexivity|].
  destruct (notifier_show w _ "POE Helper started" NotifyInfo);
    repeat split; simpl; find_event.
Qed.

(** X12: whatever the notifier answers to the startup message, [Run] goes
    on: it shows the message, starts the goroutine of the log watcher of the
    helper, once, and only then subscribes to the signals. *)
Theorem Run_starts_watcher_once (w : World) (p : app.POEHelper) (t : trace) :
  exists pre post,
    snd (app.Run w p t) = t ++ pre ++ EvGoWatch (app.poeLogWatcher p) :: post
    /\ In (EvShow "POE Helper started" NotifyInfo) pre
    /\ existsb is_go_watch pre = false
    /\ existsb is_subscription pre = false
    /\ existsb is_go_watch post = false
    /\ existsb is_subscription post = true.
Proof.
  destruct (Run_startup_split w p t)
    as (pre & Hstart & Hshow & _ & Hgo & Hsub & _).
  exists pre.
  rewrite Run_until_signal, Hstart.
  destruct (signal_recv w _) as [sig|].
  - rewrite Stop_trace.
    exists (Run_waiting
              ++ [EvSignal sig;
                  EvLog LevelInfo "Shutdown signal received" None
                    [("signal", VString (Signal_String sig))]]
              ++ EvLog LevelInfo "Initiating POE Helper shutdown" None []
                 :: match app.poeLogWatcher p with
                    | Some lw =>
                        [EvLog LevelDebug "Stopping log watcher" None [];
                         EvWatcherStop lw]
                    | None => []
                    end
                 ++ [EvLog LevelInfo "POE Helper shutdown complete" None
                       [("status", VString "stopped");
                        ("processed_entries",
                         VInt (Z.of_nat (List.length (app.entries p))))]]).
    split; [simpl; rewrite <- !app_assoc; reflexivity|].
    repeat split; try assumption.
    destruct (app.poeLogWatcher p); reflexivity.
  - exists Run_waiting. simpl.
    repeat split; assumption.
Qed.


(** X14: the goroutine [Run] starts calls [Watch] first.  When [Watch]
    returns an error, the goroutine logs it and shows it through the notifier
    as an error, behind the words "Log watcher error"; when [Watch] returns
    [nil] it shows nothing, and as long as [Watch] does not return neither
    does the goroutine.  It never stops the log watcher. *)
Theorem watchRoutine_reports_failure (w : World) (p : app.POEHelper)
    (t : trace) :
  exists evs,
    app.watchRoutine w p t =
      (match watcher_watch w t (app.poeLogWatcher p) with
       | Some _ => Done tt
       | None => Blocked
       end,
       t ++ EvWatch (app.poeLogWatcher p) :: evs)
    /\ filter is_show evs =
         match watcher_watch w t (app.poeLogWatcher p) with
         | Some (Some e) => [EvShow ("Log watcher error: " ++ e) NotifyError]
         | _ => []
         end
    /\ existsb is_watcher_stop evs = false.
Proof.
  unfold app.watchRoutine.
  destruct (watcher_watch w t (app.poeLogWatcher p)) as [[e|]|]; run_go.
  - eexists. split; [rewrite <- !app_assoc; reflexivity|].
    split; reflexivity.
  - exists []. split; [reflexivity|]. split; reflexivity.
  - exists []. split; [reflexivity|]. split; reflexivity.
Qed.

(** What [Run] does when the signal arrives. *)
Lemma Run_signalled (w : World) (p : app.POEHelper) (t : trace) :
  (forall t', signal_recv w t' <> None) ->
  exists sig pre,
    app.Run w p t =
      (Done None,
       t ++ pre ++ EvGoWatch (app.poeLogWatcher p)
         :: Run_waiting ++ EvSignal sig
         :: EvLog LevelInfo "Shutdown signal received" None
              [("signal", VString (Signal_String sig))]
         :: EvLog LevelInfo "Initiating POE Helper shutdown" None []
         :: match app.poeLogWatcher p with
            | Some lw =>
                [EvLog LevelDebug "Stopping log watcher" None [];
                 EvWatcherStop lw]
            | None => []
            end
         ++ [EvLog LevelInfo "POE Helper shutdown complete" None
               [("status", VString "stopped");
                ("processed_entries",
                 VInt (Z.of_nat (List.length (app.entries p))))]])
    /\ existsb background_work pre = false.
Proof.
  intros Hsig. rewrite Run_until_signal.
  specialize (Hsig (t ++ Run_startup w p t)).
  destruct (signal_recv w (t ++ Run_startup w p t)) as [sig|]; [|congruence].
  destruct (Run_startup_split w p t) as (pre & Hstart & _ & Hquiet & _).
  rewrite Stop_trace, Hstart.
  exists sig, pre. split; [|exact Hquiet].
  simpl. rewrite <- !app_assoc. reflexivity.
Qed.

(** X15: on a machine with rofi where the log watcher is created and the
    signal arrives, [NewPOEHelper] followed by [Run] returns [nil], and the
    log watcher that [NewPOEHelper] created is the one [Run] starts and, after
    the signal, stops: creation, start, signal and stop come in this order,
    and the log watcher is neither started nor stopped at any other
    moment. *)
Theorem new_then_run_lifecycle (w : World) (t : trace) (lw : LogWatcher) :
  (forall t', snd (look_path w t' "rofi") = None) ->
  (forall t', new_log_watcher w t' = (Some lw, None)) ->
  (forall t', signal_recv w t' <> None) ->
  exists tm sig evs1 evs2 evs3 evs4 evs5,
    new_then_run w t =
      (Done None,
       t ++ evs1 ++ EvNewLogWatcher tm
         :: evs2 ++ EvGoWatch (Some lw)
         :: evs3 ++ EvSignal sig
         :: evs4 ++ EvWatcherStop lw :: evs5)
    /\ existsb is_go_watch evs1 = false
    /\ existsb is_watcher_stop evs1 = false
    /\ existsb background_work (evs2 ++ evs3 ++ evs4 ++ evs5) = false.
Proof.
  intros Hrofi Hlw Hsig. unfold new_then_run, bind.
  rewrite NewPOEHelper_run. cbv zeta. rewrite Hrofi, Hlw.
  cbv beta iota. unfold fst.
  match goal with
  | |- context [app.Run w (app.mkPOEHelper [] (Some lw) ?tm) ?t1] =>
      destruct (Run_signalled w (app.mkPOEHelper [] (Some lw) tm) t1 Hsig)
        as (sig & pre & Hrun & Hquiet);
      rewrite Hrun; exists tm
  end.
  cbn [app.poeLogWatcher app.entries].
  exists sig, (NewPOEHelper_prelude w ++ NewPOEHelper_setup), pre, Run_waiting,
    (Run_stopping sig),
    [EvLog LevelInfo "POE Helper shutdown complete" None
       [("status", VString "stopped");
        ("processed_entries", VInt (Z.of_nat (@List.length models.TradeEntry [])))]].
  split; [|split; [reflexivity|split; [reflexivity|]]].
  - unfold Run_stopping. simpl. rewrite <- !app_assoc. reflexivity.
  - rewrite existsb_app, Hquiet. reflexivity.
Qed.

(** X15 on a machine with rofi, when SIGTERM arrives. *)
Lemma new_then_run_lifecycle_witness :
  exists tm sig evs1 evs2 evs3 evs4 evs5,
    new_then_run world_fallback [] =
      (Done None,
       evs1 ++ EvNewLogWatcher tm
         :: evs2 ++ EvGoWatch (Some (LogWatcherAt 2))
         :: evs3 ++ EvSignal sig
         :: evs4 ++ EvWatcherStop (LogWatcherAt 2) :: evs5)
    /\ existsb is_go_watch evs1 = false
    /\ existsb is_watcher_stop evs1 = false
    /\ existsb background_work (evs2 ++ evs3 ++ evs4 ++ evs5) = false.
Proof.
  apply (new_then_run_lifecycle world_fallback [] (LogWatcherAt 2)).
  - intros t'. reflexivity.
  - intros t'. reflexivity.
  - intros t'. discriminate.
Defined.

(** ** The callback of the log watcher *)

(** X16: called on one entry after the other, [handleTradeEntry] returns
    every time, whatever the trade manager answers, and hands every entry to
    the trade manager, once and in order: a trade that is refused does not
    keep the later ones from being handed on. *)
Theorem handle_each_hands_all (w : World) (p : app.POEHelper)
    (entries : list models.TradeEntry) :
  forall t,
    exists evs,
      handle_each w p entries t = (Done tt, t ++ evs)
      /\ trades_added evs = entries
      /\ existsb background_work evs = false.
Proof.
  induction entries as [|entry rest IH]; intros t; simpl.
  - exists []. rewrite app_nil_r. repeat split.
  - unfold bind, app.handleTradeEntry, app.AddTrade. run_go.
    destruct (add_trade w t (app.tradeManager p) entry) as [e|]; run_go;
      match goal with
      | |- context [handle_each w p rest ?t1] =>
          destruct (IH t1) as (evs & Hrun & Hadded & Hquiet); rewrite Hrun
      end.
    + exists (EvAddTrade (app.tradeManager p) entry
              :: EvLog LevelError "Failed to process trade in manager" (Some e)
                   [("player", VString (models.PlayerName entry));
                    ("item", VString (models.ItemName entry))]
              :: evs).
      rewrite <- !app_assoc. simpl.
      split; [reflexivity|]. split; [|exact Hquiet].
      unfold trades_added in *. simpl. rewrite Hadded. reflexivity.
    + exists (EvAddTrade (app.tradeManager p) entry :: evs).
      rewrite <- !app_assoc. simpl.
      split; [reflexivity|]. split; [|exact Hquiet].
      unfold trades_added in *. simpl. rewrite Hadded. reflexivity.
Qed.
